(** * Farming chatbot: crop detection, topic resolution and advice formatting

    A shallow embedding of [FarmingChatbot] (main.py): [detect_crop],
    [find_matching_topic], [get_crop_advice], [process_message] and the
    loader [load_crop_data_safe], followed by the properties of the
    message interpreter.

    Conventions.
    - A Python [str] is a [string]: the sequence of the bytes of its UTF-8
      encoding.  Concatenation, [join] and the substring test [in] agree on
      code points and on their encodings.
    - [str.lower] is a parameter [lower] of the development: every general
      statement holds for any lowercasing function.  [ascii_lower], which is
      [str.lower] on ASCII text, instantiates it for concrete runs.
    - A [dict] is an association list in insertion order; the dicts of the
      program come from [json.load] or from a literal, so their keys are
      distinct.  No statement below needs that assumption.
    - An optional argument ([Optional[str]], default [None]) is an
      [option string]; [truthy] is Python's truth test on it. *)

From Stdlib Require Import String Ascii List Bool Arith Lia.
Import ListNotations.
Open Scope string_scope.

(** ** Python strings *)

Module PyStr.

(** [s.startswith(p)]. *)
Fixpoint startswith (p s : string) : bool :=
  match p, s with
  | EmptyString, _ => true
  | String a p', String b s' => Ascii.eqb a b && startswith p' s'
  | String _ _, EmptyString => false
  end.

(** [needle in hay] on strings: plain substring containment. *)
Fixpoint str_in (needle hay : string) : bool :=
  startswith needle hay ||
  match hay with
  | EmptyString => false
  | String _ hay' => str_in needle hay'
  end.

(** The relation that [str_in] decides. *)
Definition Substring (needle hay : string) : Prop :=
  exists pre suf, hay = pre ++ needle ++ suf.

(** [sep.join(l)]. *)
Definition join (sep : string) (l : list string) : string :=
  String.concat sep l.

(** The line feed of the literals ["\n"]. *)
Definition nl : string := String (ascii_of_nat 10) EmptyString.

Definition of_bytes (l : list nat) : string :=
  fold_right (fun n s => String (ascii_of_nat n) s) EmptyString l.

Definition is_upper (c : ascii) : bool :=
  let n := nat_of_ascii c in ((65 <=? n) && (n <=? 90))%nat.

Definition is_lower (c : ascii) : bool :=
  let n := nat_of_ascii c in ((97 <=? n) && (n <=? 122))%nat.

Definition lower_char (c : ascii) : ascii :=
  if is_upper c then ascii_of_nat (nat_of_ascii c + 32) else c.

Definition upper_char (c : ascii) : ascii :=
  if is_lower c then ascii_of_nat (nat_of_ascii c - 32) else c.

Fixpoint map_chars (f : ascii -> ascii) (s : string) : string :=
  match s with
  | EmptyString => EmptyString
  | String c s' => String (f c) (map_chars f s')
  end.

(** [s.lower()] on ASCII text. *)
Definition ascii_lower (s : string) : string := map_chars lower_char s.

(** [s.replace(old, new)] for one-character [old] and [new]. *)
Definition replace (old new : ascii) (s : string) : string :=
  map_chars (fun c => if Ascii.eqb c old then new else c) s.

(** [s.title()] on ASCII text: a letter that follows a letter is
    lowercased, any other letter is uppercased. *)
Fixpoint title_from (prev_cased : bool) (s : string) : string :=
  match s with
  | EmptyString => EmptyString
  | String c s' =>
      let cased := is_upper c || is_lower c in
      String (if prev_cased then lower_char c else upper_char c)
             (title_from cased s')
  end.

Definition title (s : string) : string := title_from false s.

End PyStr.

Import PyStr.

(** ** Python dicts and optional arguments *)

Definition dict (V : Type) : Type := list (string * V).

(** [d.keys()], in insertion order. *)
Definition keys {V : Type} (d : dict V) : list string := map fst d.

(** [d[k]], where [None] stands for an absent key. *)
Fixpoint dict_get {V : Type} (d : dict V) (k : string) : option V :=
  match d with
  | [] => None
  | (k', v) :: d' => if String.eqb k k' then Some v else dict_get d' k
  end.

(** [k in d]. *)
Definition dict_mem {V : Type} (k : string) (d : dict V) : bool :=
  match dict_get d k with
  | Some _ => true
  | None => false
  end.

(** Truth value of an [Optional[str]]: [None] and the empty string are
    false. *)
Definition truthy (o : option string) : bool :=
  match o with
  | Some s => negb (String.eqb s "")
  | None => false
  end.

(** ** The knowledge base *)

(** A fact of a crop record: one string or an ordered list of strings. *)
Inductive fact : Type :=
| Text (s : string)
| Facts (l : list string).

Definition crop_record : Type := dict fact.
Definition knowledge_base : Type := dict crop_record.

(** The file system as the loader sees it: [None] when [os.path.exists]
    fails, otherwise what [json.load] parses from the file. *)
Definition file_system : Type := string -> option knowledge_base.

Definition load_crop_data_safe (fs : file_system) (filename : string)
  : knowledge_base :=
  match fs filename with
  | None => []
  | Some data => data
  end.

(** [FarmingChatbot.__init__]: the value of [self.crop_data]. *)
Definition init_crop_data (fs : file_system) : knowledge_base :=
  load_crop_data_safe fs "data/crop_data.json".

(** ** Responses *)

Record ChatResponse : Type := mkChatResponse {
  response : string;
  crop_type : option string;
  suggestions : option (list string)
}.

(** The bullet literal of the source, as the bytes the file holds. *)
Definition bullet : string := of_bytes [195; 162; 226; 130; 172; 194; 162].

Definition keyword_map : dict string :=
  [ ("plant", "season");
    ("sow", "season");
    ("water", "watering");
    ("irrigation", "irrigation_methods");
    ("fertilizer", "fertilizer");
    ("nutrition", "fertilizer");
    ("harvest", "harvesting");
    ("problem", "pests");
    ("disease", "pests");
    ("pest", "pests");
    ("tip", "organic_tips");
    ("advice", "organic_tips");
    ("soil", "soil");
    ("yield", "yield");
    ("spacing", "spacing");
    ("variety", "varieties");
    ("germinate", "germination");
    ("intercrop", "intercropping");
    ("prune", "pruning");
    ("special", "special_notes");
    ("process", "processing");
    ("store", "storage");
    ("climate", "climate");
    ("propagate", "propagation");
    ("economic", "economic_life") ].

Definition main_topics : list string :=
  [ "season"; "soil"; "watering"; "fertilizer"; "pests"; "harvesting";
    "yield"; "spacing"; "varieties"; "organic_tips" ].

Definition greetings : list string := [ "hello"; "hi"; "hey" ].

Definition greeting_text : string :=
  "Hello! I'm your farming assistant. I can help you with crop info, irrigation, fertilizers, pests, and more.".

Definition greeting_suggestions : list string :=
  [ "What crops do you know about?"; "Tell me about wheat farming" ].

Definition default_text : string :=
  "I'm here to help with comprehensive farming guidance! Ask me about specific crops or topics.".

Definition default_suggestions : list string :=
  [ "Available crops"; "Organic farming tips" ].

(** ** The chatbot *)

Section FarmingChatbot.

Variable lower : string -> string.
Variable crop_data : knowledge_base.

Definition get_available_crops : list string := keys crop_data.

(** The [for] loop of [detect_crop] over the keys still to visit. *)
Fixpoint detect_crop_loop (message_lower : string) (crops : list string)
  : option string :=
  match crops with
  | [] => None
  | crop :: rest =>
      if str_in (lower crop) message_lower then Some crop
      else detect_crop_loop message_lower rest
  end.

Definition detect_crop (message : string) : option string :=
  let message_lower := lower message in
  detect_crop_loop message_lower (keys crop_data).

(** The [for] loop of [find_matching_topic] over the items still to
    visit. *)
Fixpoint find_matching_topic_loop (message_lower : string)
  (items : dict string) : option string :=
  match items with
  | [] => None
  | (keyword, topic) :: rest =>
      if str_in keyword message_lower then Some topic
      else find_matching_topic_loop message_lower rest
  end.

Definition find_matching_topic (message : string) (crop_info : crop_record)
  : option string :=
  let message_lower := lower message in
  find_matching_topic_loop message_lower keyword_map.

(** The text of the unknown-crop branch of [get_crop_advice]. *)
Definition unknown_crop_text (crop : string) : string :=
  "Sorry, I don't have information about " ++ crop
    ++ ". Available crops: " ++ join ", " get_available_crops.

(** The text of the unknown-topic branch of [get_crop_advice]. *)
Definition no_information_text (topic crop : string) : string :=
  "No information available for " ++ topic ++ " of " ++ crop ++ ".".

(** One block of the general summary: the f-string appended for a main
    topic [t] whose value is [value]. *)
Definition heading_block (t : string) (value : fact) : string :=
  let value :=
    match value with
    | Facts l => join (nl ++ bullet ++ " ") l
    | Text s => s
    end in
  "**" ++ title (replace "_" " " t) ++ ":** " ++ value ++ nl ++ nl.

(** The body of the loop over [main_topics]. *)
Definition general_step (crop_info : crop_record) (response t : string)
  : string :=
  match dict_get crop_info t with
  | Some value => response ++ heading_block t value
  | None => response
  end.

Definition general_header (crop : string) : string :=
  "Here's general information about " ++ crop ++ ":" ++ nl ++ nl.

(** The general summary: the loop over [main_topics] that ends
    [get_crop_advice]. *)
Definition general_advice (crop : string) (crop_info : crop_record) : string :=
  fold_left (general_step crop_info) main_topics (general_header crop).

Definition get_crop_advice (crop : string) (topic : option string) : string :=
  match dict_get crop_data crop with
  | None => unknown_crop_text crop
  | Some crop_info =>
      match topic with
      | Some t =>
          if truthy topic then
            match dict_get crop_info t with
            | Some (Facts l) => bullet ++ " " ++ join (nl ++ bullet ++ " ") l
            | Some (Text s) => s
            | None => no_information_text t crop
            end
          else general_advice crop crop_info
      | None => general_advice crop crop_info
      end
  end.

Definition greeting_response : ChatResponse :=
  {| response := greeting_text;
     crop_type := None;
     suggestions := Some greeting_suggestions |}.

Definition available_crops_response : ChatResponse :=
  let crops := get_available_crops in
  {| response := "I have information about: " ++ join ", " crops;
     crop_type := None;
     suggestions :=
       Some (map (fun crop => "Complete guide for " ++ crop)
                 (firstn 4 crops)) |}.

Definition default_response : ChatResponse :=
  {| response := default_text;
     crop_type := None;
     suggestions := Some default_suggestions |}.

(** The crop-specific rule; [crop] is known, so [crop_data[crop]] does not
    raise. *)
Definition crop_response (message crop : string) : ChatResponse :=
  match dict_get crop_data crop with
  | Some crop_info =>
      let specific_topic := find_matching_topic message crop_info in
      {| response := get_crop_advice crop specific_topic;
         crop_type := Some crop;
         suggestions := None |}
  | None => default_response
  end.

(** What the greeting test of [process_message] decides. *)
Definition has_greeting (message : string) : Prop :=
  Substring "hello" (lower message) \/
  Substring "hi" (lower message) \/
  Substring "hey" (lower message).

(** What the available-crops test of [process_message] decides. *)
Definition asks_for_crops (message : string) : Prop :=
  Substring "what crops" (lower message) \/
  Substring "available crops" (lower message).

Definition process_message (message : string) (crop_hint : option string)
  : ChatResponse :=
  let message_lower := lower message in
  let crop_hint :=
    if negb (truthy crop_hint) then detect_crop message else crop_hint in
  if existsb (fun greeting => str_in greeting message_lower) greetings then
    greeting_response
  else if str_in "what crops" message_lower
          || str_in "available crops" message_lower then
    available_crops_response
  else
    match crop_hint with
    | Some crop =>
        if truthy crop_hint && dict_mem crop crop_data then
          crop_response message crop
        else default_response
    | None => default_response
    end.

End FarmingChatbot.

(** ** A sample knowledge base *)

Definition wheat_record : crop_record :=
  [ ("season", Text "Rabi (October to December)");
    ("watering", Facts ["Water every 3 days"; "Avoid waterlogging"]);
    ("organic_tips", Facts ["Use compost"; "Rotate with legumes"]) ].

Definition rice_record : crop_record :=
  [ ("soil", Text "Clayey loam");
    ("season", Text "Kharif") ].

Definition sample_data : knowledge_base :=
  [ ("Wheat", wheat_record); ("Rice", rice_record); ("Maize", []);
    ("Cotton", []); ("Sugarcane", []) ].

(** A knowledge base whose one fact spells the unknown-crop text. *)
Definition echo_data : knowledge_base :=
  [ ("Rice",
     [ ("season",
        Text "Sorry, I don't have information about Wheat. Available crops: Rice") ]) ].




(** * Properties *)

(** ** Substring containment *)

Section StringFacts.

Lemma startswith_spec (p s : string) :
  startswith p s = true <-> exists suf, s = p ++ suf.
Proof.
  revert s; induction p as [|a p IH]; intros s; simpl.
  - split; [intros _; now exists s | reflexivity].
  - destruct s as [|b s].
    + split; [discriminate | intros [suf H]; discriminate].
    + rewrite andb_true_iff, Ascii.eqb_eq, IH. split.
      * intros [-> [suf ->]]. now exists suf.
      * intros [suf H]. injection H as -> ->. split; [reflexivity | now exists suf].
Qed.

Lemma append_assoc (a b c : string) : (a ++ b) ++ c = a ++ (b ++ c).
Proof. induction a as [|x a IH]; simpl; [reflexivity | now rewrite IH]. Qed.

Lemma append_empty_r (a : string) : a ++ "" = a.
Proof. induction a as [|x a IH]; simpl; [reflexivity | now rewrite IH]. Qed.

Lemma str_in_spec (needle hay : string) :
  str_in needle hay = true <-> Substring needle hay.
Proof.
  unfold Substring. induction hay as [|b hay IH].
  - cbn [str_in]. rewrite orb_false_r, startswith_spec. split.
    + intros [suf H]. now exists "", suf.
    + intros [pre [suf H]]. destruct pre; [now exists suf | discriminate].
  - cbn [str_in]. rewrite orb_true_iff, startswith_spec, IH. split.
    + intros [[suf H] | [pre [suf H]]].
      * now exists "", suf.
      * exists (String b pre), suf. simpl. now rewrite H.
    + intros [pre [suf H]]. destruct pre as [|x pre].
      * left. now exists suf.
      * right. injection H as _ H. now exists pre, suf.
Qed.

Lemma str_in_false (needle hay : string) :
  str_in needle hay = false <-> ~ Substring needle hay.
Proof.
  rewrite <- str_in_spec. destruct (str_in needle hay); split; intros H;
    try reflexivity; try discriminate; try (intros K; discriminate).
  now elim H.
Qed.

Lemma Substring_refl (s : string) : Substring s s.
Proof. exists "", "". simpl. now rewrite append_empty_r. Qed.

Lemma Substring_app_l (needle a hay : string) :
  Substring needle hay -> Substring needle (a ++ hay).
Proof.
  intros [pre [suf ->]]. exists (a ++ pre), suf. now rewrite append_assoc.
Qed.

Lemma Substring_app_r (needle hay b : string) :
  Substring needle hay -> Substring needle (hay ++ b).
Proof.
  intros [pre [suf ->]]. exists pre, (suf ++ b). now rewrite !append_assoc.
Qed.

Lemma Substring_join (sep k : string) (l : list string) :
  In k l -> Substring k (join sep l).
Proof.
  unfold join. induction l as [|x l IH]; [contradiction|].
  intros [-> | Hin].
  - destruct l; simpl; [apply Substring_refl|].
    apply Substring_app_r, Substring_refl.
  - destruct l as [|y l]; [contradiction|].
    change (String.concat sep (x :: y :: l))
      with (x ++ sep ++ String.concat sep (y :: l)).
    now apply Substring_app_l, Substring_app_l, IH.
Qed.

End StringFacts.

(** ** Dict lookup *)

Section DictFacts.

Context {V : Type}.

Lemma dict_get_None (d : dict V) (k : string) :
  dict_get d k = None <-> ~ In k (keys d).
Proof.
  induction d as [|[k' v] d IH]; simpl.
  - split; [intros _ [] | reflexivity].
  - destruct (String.eqb_spec k k') as [->|Hne].
    + split; [discriminate | intros H; elim H; now left].
    + rewrite IH. split.
      * intros H [E | Hin]; [now elim Hne | now elim H].
      * intros H Hin. apply H. now right.
Qed.

Lemma dict_mem_keys (d : dict V) (k : string) :
  dict_mem k d = true <-> In k (keys d).
Proof.
  unfold dict_mem. destruct (dict_get d k) eqn:E.
  - split; [intros _ | reflexivity].
    destruct (in_dec string_dec k (keys d)) as [Hin|Hn]; [assumption|].
    apply dict_get_None in Hn. congruence.
  - split; [discriminate|]. intros Hin. apply dict_get_None in E. now elim E.
Qed.

End DictFacts.

(** ** Crop detection *)

Section DetectCrop.

Variable lower : string -> string.

Lemma detect_crop_loop_Some (m c : string) (crops : list string) :
  detect_crop_loop lower m crops = Some c <->
  exists before after,
    crops = (before ++ c :: after)%list /\
    Substring (lower c) m /\
    forall k, In k before -> ~ Substring (lower k) m.
Proof.
  induction crops as [|x crops IH]; simpl.
  - split; [discriminate|]. intros [before [after [H _]]].
    destruct before; discriminate.
  - destruct (str_in (lower x) m) eqn:E.
    + split.
      * intros [= ->]. exists [], crops. split; [reflexivity|].
        split; [now apply str_in_spec | intros k []].
      * intros [before [after [H [Hc Hb]]]]. destruct before as [|y before].
        -- now injection H as ->.
        -- injection H as Hx _. apply str_in_spec in E.
           elim (Hb x); [now left | assumption].
    + apply str_in_false in E. rewrite IH. split.
      * intros [before [after [-> [Hc Hb]]]]. exists (x :: before), after.
        split; [reflexivity|]. split; [assumption|].
        intros k [<- | Hin]; [assumption | now apply Hb].
      * intros [before [after [H [Hc Hb]]]]. destruct before as [|y before].
        -- injection H as Hx _. subst x. contradiction.
        -- injection H as Hx Hr. subst y crops. exists before, after.
           split; [reflexivity|]. split; [assumption|].
           intros k Hin. apply Hb. now right.
Qed.

Lemma detect_crop_loop_None (m : string) (crops : list string) :
  detect_crop_loop lower m crops = None <->
  forall k, In k crops -> ~ Substring (lower k) m.
Proof.
  induction crops as [|x crops IH]; simpl.
  - split; [intros _ k [] | reflexivity].
  - destruct (str_in (lower x) m) eqn:E.
    + split; [discriminate|]. intros H. apply str_in_spec in E.
      elim (H x); [now left | assumption].
    + apply str_in_false in E. rewrite IH. split.
      * intros H k [<- | Hin]; [assumption | now apply H].
      * intros H k Hin. apply H. now right.
Qed.

End DetectCrop.

(** C1. [detect_crop] returns the first key of the knowledge base, in
    insertion order, whose lowercased name is a substring of the lowercased
    message: the keys before it do not match and it does.  It returns [None]
    exactly when no key matches. *)
Theorem detect_crop_first_match
  (lower : string -> string) (crop_data : knowledge_base) (message : string) :
  (forall c,
      detect_crop lower crop_data message = Some c <->
      exists before after,
        keys crop_data = (before ++ c :: after)%list /\
        Substring (lower c) (lower message) /\
        forall k, In k before -> ~ Substring (lower k) (lower message)) /\
  (detect_crop lower crop_data message = None <->
   forall k, In k (keys crop_data) -> ~ Substring (lower k) (lower message)).
Proof.
  unfold detect_crop. split.
  - intros c. apply detect_crop_loop_Some.
  - apply detect_crop_loop_None.
Qed.

(** ** Advice for an unknown crop *)

(** C3. For a crop name that is not a key of the knowledge base and any
    topic argument, [get_crop_advice] returns the unknown-crop message: it
    names the crop and lists every known crop name, joined by [", "] in
    insertion order. *)
Theorem get_crop_advice_unknown_crop
  (crop_data : knowledge_base) (crop : string) (topic : option string) :
  ~ In crop (keys crop_data) ->
  get_crop_advice crop_data crop topic =
    "Sorry, I don't have information about " ++ crop
      ++ ". Available crops: " ++ join ", " (keys crop_data) /\
  Substring crop (get_crop_advice crop_data crop topic) /\
  forall k, In k (keys crop_data) ->
            Substring k (get_crop_advice crop_data crop topic).
Proof.
  intros Hn. apply dict_get_None in Hn. unfold get_crop_advice.
  rewrite Hn. unfold unknown_crop_text, get_available_crops.
  split; [reflexivity|]. split.
  - apply Substring_app_l, Substring_app_r, Substring_refl.
  - intros k Hin. now apply Substring_app_l, Substring_app_l, Substring_app_l,
      Substring_join.
Qed.

Lemma get_crop_advice_unknown_crop_witness :
  ~ In "Barley" (keys sample_data) /\
  get_crop_advice sample_data "Barley" (Some "watering") =
    "Sorry, I don't have information about Barley. Available crops: Wheat, Rice, Maize, Cotton, Sugarcane".
Proof.
  assert (H : ~ In "Barley" (keys sample_data)).
  { simpl. intros [E | [E | [E | [E | [E | []]]]]]; discriminate. }
  split; [exact H|].
  exact (proj1 (get_crop_advice_unknown_crop sample_data "Barley"
                  (Some "watering") H)).
Defined.

(** ** Topic resolution *)

Lemma find_matching_topic_loop_Some (m t : string) (items : dict string) :
  find_matching_topic_loop m items = Some t <->
  exists before keyword after,
    items = (before ++ (keyword, t) :: after)%list /\
    Substring keyword m /\
    forall k, In k (keys before) -> ~ Substring k m.
Proof.
  induction items as [|[k0 t0] items IH]; simpl.
  - split; [discriminate|]. intros (before & kw & after & H & _).
    destruct before; discriminate.
  - destruct (str_in k0 m) eqn:E.
    + split.
      * intros [= ->]. exists [], k0, items. split; [reflexivity|].
        split; [now apply str_in_spec | intros k []].
      * intros (before & kw & after & H & Hk & Hb).
        destruct before as [|[k1 t1] before].
        -- now injection H as _ ->.
        -- injection H as Hk0 _ _. apply str_in_spec in E.
           elim (Hb k0); [left; now rewrite Hk0 | assumption].
    + apply str_in_false in E. rewrite IH. split.
      * intros (before & kw & after & -> & Hk & Hb).
        exists ((k0, t0) :: before), kw, after.
        split; [reflexivity|]. split; [assumption|].
        intros k [<- | Hin]; [assumption | now apply Hb].
      * intros (before & kw & after & H & Hk & Hb).
        destruct before as [|[k1 t1] before].
        -- injection H as Hk0 _ _. subst k0. contradiction.
        -- injection H as _ _ Hr. subst items. exists before, kw, after.
           split; [reflexivity|]. split; [assumption|].
           intros k Hin. apply Hb. now right.
Qed.

Lemma find_matching_topic_loop_None (m : string) (items : dict string) :
  find_matching_topic_loop m items = None <->
  forall k, In k (keys items) -> ~ Substring k m.
Proof.
  induction items as [|[k0 t0] items IH]; simpl.
  - split; [intros _ k [] | reflexivity].
  - destruct (str_in k0 m) eqn:E.
    + split; [discriminate|]. intros H. apply str_in_spec in E.
      elim (H k0); [now left | assumption].
    + apply str_in_false in E. rewrite IH. split.
      * intros H k [<- | Hin]; [assumption | now apply H].
      * intros H k Hin. apply H. now right.
Qed.

(** C2, as the code has it.  [find_matching_topic] scans the fixed table in
    its order and returns the topic of the first keyword that is a substring
    of the lowercased message, wherever the keywords stand in the text, and
    [None] when no keyword occurs.  A message with both "water" and "soil"
    resolves to watering when neither "plant" nor "sow", the two keywords
    before "water" in the table, occurs in it. *)
Theorem find_matching_topic_table_order
  (lower : string -> string) (message : string) (crop_info : crop_record) :
  keys keyword_map =
    [ "plant"; "sow"; "water"; "irrigation"; "fertilizer"; "nutrition";
      "harvest"; "problem"; "disease"; "pest"; "tip"; "advice"; "soil";
      "yield"; "spacing"; "variety"; "germinate"; "intercrop"; "prune";
      "special"; "process"; "store"; "climate"; "propagate"; "economic" ] /\
  (forall t,
      find_matching_topic lower message crop_info = Some t <->
      exists before keyword after,
        keyword_map = (before ++ (keyword, t) :: after)%list /\
        Substring keyword (lower message) /\
        forall k, In k (keys before) -> ~ Substring k (lower message)) /\
  (find_matching_topic lower message crop_info = None <->
   forall k, In k (keys keyword_map) -> ~ Substring k (lower message)) /\
  (Substring "water" (lower message) ->
   Substring "soil" (lower message) ->
   ~ Substring "plant" (lower message) ->
   ~ Substring "sow" (lower message) ->
   find_matching_topic lower message crop_info = Some "watering").
Proof.
  unfold find_matching_topic. split; [reflexivity|].
  split; [intros t; apply find_matching_topic_loop_Some|].
  split; [apply find_matching_topic_loop_None|].
  intros Hw _ Hp Hs. apply find_matching_topic_loop_Some.
  exists [("plant", "season"); ("sow", "season")], "water".
  eexists. split; [reflexivity|]. split; [assumption|].
  intros k [<- | [<- | []]]; assumption.
Qed.

Lemma find_matching_topic_table_order_witness :
  find_matching_topic ascii_lower "Is the SOIL too dry? How often to Water?" []
  = Some "watering".
Proof.
  apply (find_matching_topic_table_order ascii_lower
           "Is the SOIL too dry? How often to Water?" []).
  - apply str_in_spec. reflexivity.
  - apply str_in_spec. reflexivity.
  - apply str_in_false. reflexivity.
  - apply str_in_false. reflexivity.
Defined.

(** C2, as stated, fails: a message with "water" and "soil" that also
    holds "plant" resolves to season, the topic of the first table entry. *)
Lemma find_matching_topic_water_soil_counterexample :
  let message := "How much water does the soil need when I plant?" in
  Substring "water" (ascii_lower message) /\
  Substring "soil" (ascii_lower message) /\
  find_matching_topic ascii_lower message [] = Some "season" /\
  find_matching_topic ascii_lower message [] <> Some "watering".
Proof.
  cbv zeta. split; [apply str_in_spec; reflexivity|].
  split; [apply str_in_spec; reflexivity|].
  split; [reflexivity | discriminate].
Qed.

(** ** Advice for a known crop *)

(** C4, as the code has it.  For a known crop and a non-empty topic that is
    absent from the crop's record, [get_crop_advice] returns the text
    "No information available for {topic} of {crop}.", which holds the topic
    and the crop verbatim. *)
Theorem get_crop_advice_unknown_topic
  (crop_data : knowledge_base) (crop : string) (crop_info : crop_record)
  (topic : string) :
  dict_get crop_data crop = Some crop_info ->
  topic <> "" ->
  dict_get crop_info topic = None ->
  get_crop_advice crop_data crop (Some topic) =
    "No information available for " ++ topic ++ " of " ++ crop ++ "." /\
  Substring topic (get_crop_advice crop_data crop (Some topic)) /\
  Substring crop (get_crop_advice crop_data crop (Some topic)).
Proof.
  intros Hc Ht Hn. unfold get_crop_advice. rewrite Hc. simpl truthy.
  destruct (String.eqb_spec topic "") as [E|_]; [contradiction|].
  simpl negb. cbv iota. rewrite Hn. unfold no_information_text.
  split; [reflexivity|]. split.
  - apply Substring_app_l, Substring_app_r, Substring_refl.
  - apply Substring_app_l, Substring_app_l, Substring_app_l,
      Substring_app_r, Substring_refl.
Qed.

Lemma get_crop_advice_unknown_topic_witness :
  get_crop_advice sample_data "Wheat" (Some "pruning") =
    "No information available for pruning of Wheat.".
Proof.
  apply (get_crop_advice_unknown_topic sample_data "Wheat" wheat_record
           "pruning").
  - reflexivity.
  - discriminate.
  - reflexivity.
Defined.

(** C4, as stated, fails at the empty topic: it is given and absent from
    the record, and the code answers with the general summary. *)
Lemma get_crop_advice_empty_topic_counterexample :
  dict_get sample_data "Wheat" = Some wheat_record /\
  dict_get wheat_record "" = None /\
  get_crop_advice sample_data "Wheat" (Some "") =
    general_advice "Wheat" wheat_record /\
  get_crop_advice sample_data "Wheat" (Some "") <>
    "No information available for " ++ "" ++ " of " ++ "Wheat" ++ ".".
Proof.
  repeat split; try reflexivity. vm_compute. discriminate.
Qed.

(** ** The general summary *)

Section GeneralAdvice.

Variable crop_info : crop_record.

Lemma concat_empty_cons (x : string) (xs : list string) :
  String.concat "" (x :: xs) = x ++ String.concat "" xs.
Proof.
  destruct xs as [|y xs]; simpl; [now rewrite append_empty_r | reflexivity].
Qed.

(** The loop appends, to what it starts from, one block per topic that
    the record holds, in the order of the topics.  Each topic comes with
    its heading; the text of a block is spelled out. *)
Lemma general_loop_blocks (hs : list (string * string)) (start : string) :
  (forall t h, In (t, h) hs -> title (replace "_" " " t) = h) ->
  exists blocks : list (string * string * fact),
    map fst blocks =
      filter (fun th => dict_mem (fst th) crop_info)
             hs /\
    (forall t h v, In (t, h, v) blocks -> dict_get crop_info t = Some v) /\
    fold_left (general_step crop_info) (map fst hs) start =
      start ++
      String.concat ""
        (map (fun b =>
                "**" ++ snd (fst b) ++ ":** "
                  ++ match snd b with
                     | Text s => s
                     | Facts l => String.concat (nl ++ bullet ++ " ") l
                     end
                  ++ nl ++ nl)
             blocks).
Proof.
  revert start. induction hs as [|[t h] hs IH]; intros start Hh.
  - exists []. simpl. now rewrite append_empty_r.
  - assert (Hh' : forall t' h', In (t', h') hs ->
                                title (replace "_" " " t') = h')
      by (intros t' h' Hin; apply Hh; now right).
    assert (Ht : title (replace "_" " " t) = h) by (apply Hh; now left).
    cbn [map fold_left filter fst]. unfold general_step at 2, dict_mem.
    destruct (dict_get crop_info t) as [v|] eqn:E.
    + destruct (IH (start ++ heading_block t v) Hh')
        as (blocks & Hk & Hv & Hf).
      exists ((t, h, v) :: blocks). split; [cbn [map fst]; now rewrite Hk|].
      split.
      * intros t' h' v' [[= <- <- <-] | Hin]; [assumption | now apply Hv with h'].
      * rewrite Hf. cbn [map]. rewrite concat_empty_cons, append_assoc.
        cbn [fst snd]. unfold heading_block, join. rewrite Ht.
        now destruct v.
    + destruct (IH start Hh') as (blocks & Hk & Hv & Hf).
      exists blocks. now repeat split.
Qed.

End GeneralAdvice.

(** C5. For a known crop and no topic, [get_crop_advice] returns the header
    followed by exactly one heading block for each topic of the fixed list
    that the crop's record holds, in the order of that list; a main topic
    absent from the record gets no block.  A block is the heading of the
    topic between "**" and ":** ", the value, and a blank line; a list
    value is joined by a line feed, the bullet marker and a space.  Below
    [lf] is the line feed and [mark] the bullet marker with its space. *)
Theorem get_crop_advice_general_blocks
  (crop_data : knowledge_base) (crop : string) (crop_info : crop_record) :
  dict_get crop_data crop = Some crop_info ->
  let lf := String "010" "" in
  let mark :=
    String "195" (String "162" (String "226" (String "130" (String "172"
      (String "194" (String "162" " ")))))) in
  let headings :=
    [ ("season", "Season"); ("soil", "Soil"); ("watering", "Watering");
      ("fertilizer", "Fertilizer"); ("pests", "Pests");
      ("harvesting", "Harvesting"); ("yield", "Yield");
      ("spacing", "Spacing"); ("varieties", "Varieties");
      ("organic_tips", "Organic Tips") ] in
  main_topics = map fst headings /\
  exists blocks : list (string * string * fact),
    map fst blocks =
      filter (fun th => dict_mem (fst th) crop_info)
             headings /\
    (forall t h v, In (t, h, v) blocks -> dict_get crop_info t = Some v) /\
    get_crop_advice crop_data crop None =
      "Here's general information about " ++ crop ++ ":" ++ lf ++ lf ++
      String.concat ""
        (map (fun b =>
                "**" ++ snd (fst b) ++ ":** "
                  ++ match snd b with
                     | Text s => s
                     | Facts l => String.concat (lf ++ mark) l
                     end
                  ++ lf ++ lf)
             blocks).
Proof.
  intros Hc lf mark headings. split; [reflexivity|].
  unfold get_crop_advice. rewrite Hc. unfold general_advice.
  change main_topics with (map fst headings).
  assert (Hh : forall t h, In (t, h) headings ->
                           title (replace "_" " " t) = h).
  { intros t h Hin. subst headings. simpl in Hin.
    repeat (destruct Hin as [[= <- <-] | Hin]; [reflexivity|]).
    contradiction. }
  destruct (general_loop_blocks crop_info headings (general_header crop) Hh)
    as (blocks & Hk & Hv & Hf).
  exists blocks. split; [exact Hk|]. split; [exact Hv|].
  rewrite Hf. unfold general_header. rewrite !append_assoc. reflexivity.
Qed.

Lemma get_crop_advice_general_blocks_witness :
  exists blocks : list (string * string * fact),
    map fst blocks =
      [ ("season", "Season"); ("watering", "Watering");
        ("organic_tips", "Organic Tips") ] /\
    (forall t h v, In (t, h, v) blocks -> dict_get wheat_record t = Some v) /\
    get_crop_advice sample_data "Wheat" None =
      "Here's general information about Wheat:" ++ nl ++ nl ++
      String.concat ""
        (map (fun b =>
                "**" ++ snd (fst b) ++ ":** "
                  ++ match snd b with
                     | Text s => s
                     | Facts l => String.concat (nl ++ bullet ++ " ") l
                     end
                  ++ nl ++ nl)
             blocks).
Proof.
  exact (proj2 (get_crop_advice_general_blocks sample_data "Wheat"
                  wheat_record eq_refl)).
Defined.

(** The general summary of the sample Wheat record, in full. *)
Example general_summary_wheat :
  let lf := String "010" "" in
  let mark :=
    String "195" (String "162" (String "226" (String "130" (String "172"
      (String "194" (String "162" " ")))))) in
  get_crop_advice sample_data "Wheat" None =
    "Here's general information about Wheat:" ++ lf ++ lf
    ++ "**Season:** Rabi (October to December)" ++ lf ++ lf
    ++ "**Watering:** Water every 3 days" ++ lf
    ++ mark ++ "Avoid waterlogging" ++ lf ++ lf
    ++ "**Organic Tips:** Use compost" ++ lf
    ++ mark ++ "Rotate with legumes" ++ lf ++ lf.
Proof. reflexivity. Qed.

(** The headings of the blocks: the topic names with underscores replaced
    by spaces, title-cased. *)
Example main_topic_headings :
  map (fun t => title (replace "_" " " t)) main_topics =
    [ "Season"; "Soil"; "Watering"; "Fertilizer"; "Pests"; "Harvesting";
      "Yield"; "Spacing"; "Varieties"; "Organic Tips" ].
Proof. reflexivity. Qed.

(** ** Message processing *)

Section ProcessMessage.

Variable lower : string -> string.
Variable crop_data : knowledge_base.

Lemma greeting_test (message : string) :
  existsb (fun greeting => str_in greeting (lower message)) greetings = true
  <-> has_greeting lower message.
Proof.
  unfold has_greeting, greetings. cbn [existsb].
  rewrite !orb_true_iff, !str_in_spec. intuition discriminate.
Qed.

Lemma crops_test (message : string) :
  str_in "what crops" (lower message)
  || str_in "available crops" (lower message) = true
  <-> asks_for_crops lower message.
Proof.
  unfold asks_for_crops. now rewrite orb_true_iff, !str_in_spec.
Qed.

Lemma process_message_greeting (message : string) (hint : option string) :
  has_greeting lower message ->
  process_message lower crop_data message hint = greeting_response.
Proof.
  intros H. apply greeting_test in H. unfold process_message.
  cbv zeta. now rewrite H.
Qed.

Lemma process_message_crops (message : string) (hint : option string) :
  ~ has_greeting lower message ->
  asks_for_crops lower message ->
  process_message lower crop_data message hint =
    available_crops_response crop_data.
Proof.
  intros Hg Hc. apply crops_test in Hc. unfold process_message. cbv zeta.
  destruct (existsb _ greetings) eqn:E.
  - apply greeting_test in E. contradiction.
  - now rewrite Hc.
Qed.

End ProcessMessage.

(** C6. A message whose lowercased form contains "hello", "hi" or "hey"
    gets the canned greeting text and exactly two suggestions, whatever the
    crop hint. *)
Theorem process_message_greeting_text
  (lower : string -> string) (crop_data : knowledge_base)
  (message : string) (hint : option string) :
  Substring "hello" (lower message) \/
  Substring "hi" (lower message) \/
  Substring "hey" (lower message) ->
  response (process_message lower crop_data message hint) =
    "Hello! I'm your farming assistant. I can help you with crop info, irrigation, fertilizers, pests, and more." /\
  suggestions (process_message lower crop_data message hint) =
    Some [ "What crops do you know about?"; "Tell me about wheat farming" ] /\
  exists l, suggestions (process_message lower crop_data message hint) = Some l
            /\ length l = 2.
Proof.
  intros H. rewrite (process_message_greeting lower crop_data message hint H).
  split; [reflexivity|]. split; [reflexivity|].
  exists greeting_suggestions. now split.
Qed.

Lemma process_message_greeting_text_witness :
  response (process_message ascii_lower sample_data "What about this?" None) =
    greeting_text.
Proof.
  apply (process_message_greeting_text ascii_lower sample_data
           "What about this?" None).
  right; left. apply str_in_spec. reflexivity.
Defined.

(** C10. The greeting rule comes before the crop rule: for a message whose
    lowercased form contains "hello", "hi" or "hey" and any crop hint, also
    one that names a known crop, the response is the canned greeting with
    [crop_type] none. *)
Theorem process_message_greeting_drops_hint
  (lower : string -> string) (crop_data : knowledge_base)
  (message : string) (hint : option string) :
  has_greeting lower message ->
  process_message lower crop_data message hint =
    {| response := greeting_text;
       crop_type := None;
       suggestions := Some greeting_suggestions |} /\
  crop_type (process_message lower crop_data message hint) = None.
Proof.
  intros H. rewrite (process_message_greeting lower crop_data message hint H).
  now split.
Qed.

Lemma process_message_greeting_drops_hint_witness :
  dict_mem "Wheat" sample_data = true /\
  crop_type (process_message ascii_lower sample_data "Hey, how do I water it?"
               (Some "Wheat")) = None.
Proof.
  split; [reflexivity|].
  apply (process_message_greeting_drops_hint ascii_lower sample_data
           "Hey, how do I water it?" (Some "Wheat")).
  right; right. apply str_in_spec. reflexivity.
Defined.

(** C7. A message with no greeting substring whose lowercased form contains
    "what crops" or "available crops" gets a response that lists every crop
    name, and as suggestions "Complete guide for {crop}" for the first four
    crop names in insertion order, fewer when there are fewer crops. *)
Theorem process_message_available_crops
  (lower : string -> string) (crop_data : knowledge_base)
  (message : string) (hint : option string) :
  ~ has_greeting lower message ->
  asks_for_crops lower message ->
  let r := process_message lower crop_data message hint in
  response r = "I have information about: " ++ join ", " (keys crop_data) /\
  (forall k, In k (keys crop_data) -> Substring k (response r)) /\
  suggestions r =
    Some (map (fun crop => "Complete guide for " ++ crop)
              (firstn 4 (keys crop_data))) /\
  (exists l, suggestions r = Some l /\
             length l = Nat.min 4 (length (keys crop_data))) /\
  crop_type r = None.
Proof.
  intros Hg Hc r. subst r.
  rewrite (process_message_crops lower crop_data message hint Hg Hc).
  unfold available_crops_response, get_available_crops. cbn [response
    suggestions crop_type].
  split; [reflexivity|]. split.
  - intros k Hin. now apply Substring_app_l, Substring_join.
  - split; [reflexivity|]. split; [|reflexivity].
    eexists. split; [reflexivity|]. now rewrite length_map, length_firstn.
Qed.

Lemma process_message_available_crops_witness :
  suggestions (process_message ascii_lower sample_data
                 "What crops do you have" None) =
    Some [ "Complete guide for Wheat"; "Complete guide for Rice";
           "Complete guide for Maize"; "Complete guide for Cotton" ].
Proof.
  apply (process_message_available_crops ascii_lower sample_data
           "What crops do you have" None).
  - intros [H | [H | H]]; revert H; apply str_in_false; reflexivity.
  - left. apply str_in_spec. reflexivity.
Defined.

(** ** Loader and formatter *)



(** ** Unknown crop hints *)

Section CropRule.

Variable lower : string -> string.
Variable crop_data : knowledge_base.

Lemma process_message_rules (message : string) (hint : option string) :
  process_message lower crop_data message hint = greeting_response \/
  process_message lower crop_data message hint =
    available_crops_response crop_data \/
  process_message lower crop_data message hint = default_response \/
  exists crop crop_info,
    In crop (keys crop_data) /\
    dict_get crop_data crop = Some crop_info /\
    process_message lower crop_data message hint =
      {| response :=
           get_crop_advice crop_data crop
             (find_matching_topic lower message crop_info);
         crop_type := Some crop;
         suggestions := None |}.
Proof.
  unfold process_message. cbv zeta.
  destruct (existsb _ greetings); [now left|].
  destruct (str_in "what crops" _ || str_in "available crops" _);
    [right; now left|].
  right; right.
  destruct (if negb (truthy hint) then _ else _) as [crop|] eqn:Eh;
    [|now left].
  destruct (truthy (Some crop) && dict_mem crop crop_data) eqn:Em;
    [|now left].
  apply andb_true_iff in Em. destruct Em as [_ Em].
  unfold crop_response. pose proof Em as Hin. apply dict_mem_keys in Hin.
  unfold dict_mem in Em.
  destruct (dict_get crop_data crop) as [crop_info|] eqn:Eg; [|discriminate].
  right. now exists crop, crop_info.
Qed.

Lemma process_message_default (message : string) (hint : option string) :
  ~ has_greeting lower message ->
  ~ asks_for_crops lower message ->
  (forall crop,
      (if truthy hint then hint else detect_crop lower crop_data message)
      = Some crop ->
      ~ In crop (keys crop_data)) ->
  process_message lower crop_data message hint = default_response.
Proof.
  intros Hg Hc Hk. unfold process_message. cbv zeta.
  destruct (existsb _ greetings) eqn:E1;
    [apply greeting_test in E1; contradiction|].
  destruct (str_in "what crops" _ || str_in "available crops" _) eqn:E2;
    [apply crops_test in E2; contradiction|].
  assert (Hsame : (if negb (truthy hint)
                   then detect_crop lower crop_data message else hint)
                  = (if truthy hint
                     then hint else detect_crop lower crop_data message)).
  { now destruct (truthy hint). }
  rewrite Hsame.
  destruct (if truthy hint then _ else _) as [crop|] eqn:Eh; [|reflexivity].
  specialize (Hk crop eq_refl).
  destruct (dict_mem crop crop_data) eqn:Em.
  - apply dict_mem_keys in Em. contradiction.
  - now rewrite andb_false_r.
Qed.

End CropRule.

(** C9, as the code has it.  For a message with no greeting substring and
    neither "what crops" nor "available crops": when the crop hint, which is
    the explicit hint if it is non-empty and the detected crop if the hint
    is absent or empty, is not a key of the knowledge base,
    [process_message] returns the generic help response with its two
    suggestions and no [crop_type].  For every input, [process_message]
    calls [get_crop_advice] only with a crop that is a key of the knowledge
    base, so the unknown-crop branch of [get_crop_advice] is never the
    source of its response. *)
Theorem process_message_unknown_hint
  (lower : string -> string) (crop_data : knowledge_base)
  (message : string) (hint : option string) :
  (~ has_greeting lower message ->
   ~ asks_for_crops lower message ->
   (forall crop,
       (if truthy hint then hint else detect_crop lower crop_data message)
       = Some crop ->
       ~ In crop (keys crop_data)) ->
   process_message lower crop_data message hint =
     {| response :=
          "I'm here to help with comprehensive farming guidance! Ask me about specific crops or topics.";
        crop_type := None;
        suggestions := Some [ "Available crops"; "Organic farming tips" ] |})
  /\
  (process_message lower crop_data message hint = greeting_response \/
   process_message lower crop_data message hint =
     available_crops_response crop_data \/
   process_message lower crop_data message hint = default_response \/
   exists crop crop_info,
     In crop (keys crop_data) /\
     dict_get crop_data crop = Some crop_info /\
     process_message lower crop_data message hint =
       {| response :=
            get_crop_advice crop_data crop
              (find_matching_topic lower message crop_info);
          crop_type := Some crop;
          suggestions := None |}).
Proof.
  split.
  - apply process_message_default.
  - apply process_message_rules.
Qed.

Lemma process_message_unknown_hint_witness :
  process_message ascii_lower sample_data "How do I water wheat?"
    (Some "Barley") = default_response.
Proof.
  apply (process_message_unknown_hint ascii_lower sample_data
           "How do I water wheat?" (Some "Barley")).
  - intros [H | [H | H]]; revert H; apply str_in_false; reflexivity.
  - intros [H | H]; revert H; apply str_in_false; reflexivity.
  - intros crop [= <-]. apply dict_get_None. reflexivity.
Defined.

(** C9, as stated, fails at the empty hint: it is explicit and not a key,
    the message has no greeting and does not ask for the crops, and the code
    detects the crop from the message and answers with its advice. *)
Lemma process_message_empty_hint_counterexample :
  ~ has_greeting ascii_lower "wheat" /\
  ~ asks_for_crops ascii_lower "wheat" /\
  ~ In "" (keys sample_data) /\
  crop_type (process_message ascii_lower sample_data "wheat" (Some "")) =
    Some "Wheat" /\
  process_message ascii_lower sample_data "wheat" (Some "") <>
    default_response.
Proof.
  split.
  { intros [H | [H | H]]; revert H; apply str_in_false; reflexivity. }
  split.
  { intros [H | H]; revert H; apply str_in_false; reflexivity. }
  split.
  { apply dict_get_None. reflexivity. }
  split; [reflexivity|].
  intros H. apply (f_equal crop_type) in H. discriminate H.
Qed.

(** The unknown-crop text can only reach a response as a stored fact of a
    known crop: here the advice for Rice spells the text that
    [get_crop_advice] gives for the unknown crop Wheat. *)
Example stored_text_is_returned :
  ~ In "Wheat" (keys echo_data) /\
  process_message ascii_lower echo_data "When to plant rice?" None =
    {| response := get_crop_advice echo_data "Wheat" None;
       crop_type := Some "Rice";
       suggestions := None |}.
Proof.
  split; [apply dict_get_None; reflexivity | reflexivity].
Qed.

(** * Further properties of the chatbot *)

(** ** More on substrings and [join] *)

Lemma Substring_trans (a b c : string) :
  Substring a b -> Substring b c -> Substring a c.
Proof.
  intros [p1 [s1 ->]] [p2 [s2 ->]]. exists (p2 ++ p1), (s1 ++ s2).
  now rewrite !append_assoc.
Qed.

Lemma join_cons (sep x : string) (rest : list string) :
  join sep (x :: rest) =
    x ++ String.concat "" (map (fun f => sep ++ f) rest).
Proof.
  unfold join. revert x. induction rest as [|y rest IH]; intros x.
  - simpl. now rewrite append_empty_r.
  - change (String.concat sep (x :: y :: rest))
      with (x ++ sep ++ String.concat sep (y :: rest)).
    rewrite IH. cbn [map]. rewrite concat_empty_cons.
    now rewrite !append_assoc.
Qed.


(** ** A missing knowledge-base file *)

(** When the data file does not exist the chatbot knows no crop: the loaded
    knowledge base is empty, no crop is ever detected, and the advice for any
    crop is the unknown-crop text with an empty list of crops. *)
Theorem missing_file_knows_no_crop (fs : file_system) :
  fs "data/crop_data.json" = None ->
  init_crop_data fs = [] /\
  get_available_crops (init_crop_data fs) = [] /\
  (forall lower message,
      detect_crop lower (init_crop_data fs) message = None) /\
  (forall crop topic,
      get_crop_advice (init_crop_data fs) crop topic =
        "Sorry, I don't have information about " ++ crop
          ++ ". Available crops: ").
Proof.
  intros H. unfold init_crop_data, load_crop_data_safe. rewrite H.
  repeat split.
Qed.

Lemma missing_file_knows_no_crop_witness :
  get_crop_advice (init_crop_data (fun _ => None)) "Wheat" (Some "soil") =
    "Sorry, I don't have information about Wheat. Available crops: ".
Proof.
  apply (missing_file_knows_no_crop (fun _ => None) eq_refl).
Defined.

(** When the data file does not exist, [process_message] answers every
    message with one of three fixed responses (the greeting, an empty crop
    listing with no suggestion, or the generic help), never with a
    [crop_type], whatever the hint. *)
Theorem missing_file_process_message
  (fs : file_system) (lower : string -> string)
  (message : string) (hint : option string) :
  fs "data/crop_data.json" = None ->
  let r := process_message lower (init_crop_data fs) message hint in
  crop_type r = None /\
  (r = greeting_response \/
   r = {| response := "I have information about: ";
          crop_type := None;
          suggestions := Some [] |} \/
   r = default_response).
Proof.
  intros H r. subst r. unfold init_crop_data, load_crop_data_safe.
  rewrite H. unfold process_message. cbv zeta.
  destruct (existsb _ greetings); [split; [reflexivity | now left]|].
  destruct (str_in "what crops" _ || str_in "available crops" _);
    [split; [reflexivity | right; now left]|].
  destruct (if negb (truthy hint) then _ else _) as [crop|];
    [|split; [reflexivity | right; now right]].
  unfold dict_mem. cbn [dict_get]. rewrite andb_false_r.
  split; [reflexivity | right; now right].
Qed.

Lemma missing_file_process_message_witness :
  process_message ascii_lower (init_crop_data (fun _ => None))
    "How do I water wheat?" (Some "Wheat") = default_response.
Proof.
  destruct (missing_file_process_message (fun _ => None) ascii_lower
              "How do I water wheat?" (Some "Wheat") eq_refl)
    as [_ [H | [H | H]]]; [discriminate H | discriminate H | exact H].
Defined.

(** ** Crops that detection cannot reach *)

Section DetectShadow.

Variable lower : string -> string.

Lemma detect_crop_loop_skipped (m c : string) (before rest : list string) :
  detect_crop_loop lower m (before ++ rest) = Some c ->
  ~ In c before ->
  forall k, In k before -> ~ Substring (lower k) m.
Proof.
  induction before as [|x before IH]; intros Hd Hn k Hin; [contradiction|].
  cbn [app detect_crop_loop] in Hd.
  destruct (str_in (lower x) m) eqn:E.
  - injection Hd as ->. elim Hn. now left.
  - destruct Hin as [<- | Hin].
    + now apply str_in_false.
    + apply IH; [assumption | | assumption].
      intros Hc. apply Hn. now right.
Qed.

End DetectShadow.

(** A crop is never detected when an earlier key's lowercased name is a
    substring of its own lowercased name: every message that names it names
    the earlier crop too, and the first match wins. *)
Theorem detect_crop_shadowed
  (lower : string -> string) (crop_data : knowledge_base)
  (before after : list string) (k1 k2 message : string) :
  keys crop_data = (before ++ k2 :: after)%list ->
  In k1 before ->
  ~ In k2 before ->
  Substring (lower k1) (lower k2) ->
  detect_crop lower crop_data message <> Some k2.
Proof.
  intros Hk H1 H2 Hs Hd. unfold detect_crop in Hd. rewrite Hk in Hd.
  pose proof (detect_crop_loop_skipped lower _ _ _ _ Hd H2 k1 H1) as Hno.
  apply detect_crop_loop_Some in Hd.
  destruct Hd as (b & a & _ & Hm & _).
  apply Hno. now apply Substring_trans with (lower k2).
Qed.

Lemma detect_crop_shadowed_witness :
  detect_crop ascii_lower [ ("Rice", []); ("Wild Rice", []) ]
    "When to sow wild rice?" <> Some "Wild Rice".
Proof.
  apply (detect_crop_shadowed ascii_lower
           [ ("Rice", []); ("Wild Rice", []) ]
           [ "Rice" ] [] "Rice" "Wild Rice" "When to sow wild rice?").
  - reflexivity.
  - now left.
  - intros [E | []]. discriminate E.
  - apply str_in_spec. reflexivity.
Defined.

(** ** The crop rule of [process_message] *)

Section CropRuleFacts.

Variable lower : string -> string.
Variable crop_data : knowledge_base.

(** The hint that the rules of [process_message] work with. *)
Lemma effective_hint (message : string) (hint : option string) :
  (if negb (truthy hint) then detect_crop lower crop_data message else hint)
  = (if truthy hint then hint else detect_crop lower crop_data message).
Proof. now destruct (truthy hint). Qed.

Lemma truthy_Some (c : string) : truthy (Some c) = true <-> c <> "".
Proof.
  simpl. destruct (String.eqb_spec c ""); simpl;
    split; congruence.
Qed.

Lemma process_message_crop (message : string) (hint : option string)
  (crop : string) (crop_info : crop_record) :
  ~ has_greeting lower message ->
  ~ asks_for_crops lower message ->
  (if truthy hint then hint else detect_crop lower crop_data message)
  = Some crop ->
  crop <> "" ->
  dict_get crop_data crop = Some crop_info ->
  process_message lower crop_data message hint =
    {| response :=
         get_crop_advice crop_data crop
           (find_matching_topic lower message crop_info);
       crop_type := Some crop;
       suggestions := None |}.
Proof.
  intros Hg Hc Hh Hne Hk. unfold process_message. cbv zeta.
  destruct (existsb _ greetings) eqn:E1;
    [apply greeting_test in E1; contradiction|].
  destruct (str_in "what crops" _ || str_in "available crops" _) eqn:E2;
    [apply crops_test in E2; contradiction|].
  rewrite effective_hint, Hh.
  apply truthy_Some in Hne. rewrite Hne. unfold dict_mem, crop_response.
  now rewrite Hk.
Qed.

Lemma process_message_crop_type (message : string) (hint : option string)
  (crop : string) :
  crop_type (process_message lower crop_data message hint) = Some crop ->
  (if truthy hint then hint else detect_crop lower crop_data message)
  = Some crop /\
  crop <> "" /\
  exists crop_info,
    dict_get crop_data crop = Some crop_info /\
    process_message lower crop_data message hint =
      {| response :=
           get_crop_advice crop_data crop
             (find_matching_topic lower message crop_info);
         crop_type := Some crop;
         suggestions := None |}.
Proof.
  unfold process_message. cbv zeta.
  destruct (existsb _ greetings); [discriminate|].
  destruct (str_in "what crops" _ || str_in "available crops" _);
    [discriminate|].
  rewrite effective_hint.
  destruct (if truthy hint then _ else _) as [c|]; [|discriminate].
  destruct (truthy (Some c)) eqn:Et; [|discriminate].
  unfold dict_mem, crop_response.
  destruct (dict_get crop_data c) as [crop_info|] eqn:Eg; [|discriminate].
  cbn [andb crop_type]. intros [= ->].
  split; [reflexivity|]. split; [now apply truthy_Some|].
  now exists crop_info.
Qed.

End CropRuleFacts.

(** The crop rule.  For a message with no greeting substring that does not
    ask for the crops, when the hint in force (the explicit hint if it is
    non-empty, the detected crop otherwise) is a non-empty key of the
    knowledge base, the response is the advice for that crop and the topic
    resolved from the message, with [crop_type] set to the crop and no
    suggestions.  A known explicit hint thus wins over a crop named in the
    message. *)
Theorem process_message_crop_rule
  (lower : string -> string) (crop_data : knowledge_base)
  (message : string) (hint : option string)
  (crop : string) (crop_info : crop_record) :
  ~ has_greeting lower message ->
  ~ asks_for_crops lower message ->
  (if truthy hint then hint else detect_crop lower crop_data message)
  = Some crop ->
  crop <> "" ->
  dict_get crop_data crop = Some crop_info ->
  process_message lower crop_data message hint =
    {| response :=
         get_crop_advice crop_data crop
           (find_matching_topic lower message crop_info);
       crop_type := Some crop;
       suggestions := None |}.
Proof. apply process_message_crop. Qed.

Lemma process_message_crop_rule_witness :
  detect_crop ascii_lower sample_data "What soil suits wheat?" = Some "Wheat"
  /\
  process_message ascii_lower sample_data "What soil suits wheat?"
    (Some "Rice") =
    {| response := "Clayey loam";
       crop_type := Some "Rice";
       suggestions := None |}.
Proof.
  split; [reflexivity|].
  apply (process_message_crop_rule ascii_lower sample_data
           "What soil suits wheat?" (Some "Rice") "Rice" rice_record).
  - intros [H | [H | H]]; revert H; apply str_in_false; reflexivity.
  - intros [H | H]; revert H; apply str_in_false; reflexivity.
  - reflexivity.
  - discriminate.
  - reflexivity.
Defined.

(** What a response carries.  A response of [process_message] has either a
    [crop_type] or suggestions, never both and never neither; a [crop_type]
    is always a non-empty key of the knowledge base, and the response text
    is then the advice for that crop. *)
Theorem process_message_crop_type_or_suggestions
  (lower : string -> string) (crop_data : knowledge_base)
  (message : string) (hint : option string) :
  let r := process_message lower crop_data message hint in
  (forall crop,
      crop_type r = Some crop ->
      In crop (keys crop_data) /\ crop <> "" /\ suggestions r = None /\
      exists crop_info,
        dict_get crop_data crop = Some crop_info /\
        response r =
          get_crop_advice crop_data crop
            (find_matching_topic lower message crop_info)) /\
  (crop_type r = None -> exists l, suggestions r = Some l).
Proof.
  intros r. subst r. split.
  - intros crop H.
    destruct (process_message_crop_type lower crop_data message hint crop H)
      as (_ & Hne & crop_info & Hk & Hr).
    split.
    { apply dict_mem_keys. unfold dict_mem. now rewrite Hk. }
    split; [assumption|]. rewrite Hr. split; [reflexivity|].
    now exists crop_info.
  - destruct (process_message_rules lower crop_data message hint)
      as [H | [H | [H | (c & i & _ & _ & H)]]]; rewrite H; cbn [crop_type
      suggestions greeting_response available_crops_response
      default_response]; intros E; try discriminate E; eexists; reflexivity.
Qed.

(** A non-empty explicit hint is never replaced: the [crop_type] of the
    response is that hint or nothing, whatever crop the message names.
    Without such a hint, a [crop_type] is the crop detected in the
    message. *)
Theorem process_message_crop_type_source
  (lower : string -> string) (crop_data : knowledge_base)
  (message : string) (hint : option string) (crop : string) :
  crop_type (process_message lower crop_data message hint) = Some crop ->
  (forall h, hint = Some h -> h <> "" -> crop = h) /\
  (truthy hint = false ->
   detect_crop lower crop_data message = Some crop).
Proof.
  intros H.
  destruct (process_message_crop_type lower crop_data message hint crop H)
    as (He & _). split.
  - intros h -> Hne. apply truthy_Some in Hne. rewrite Hne in He.
    now injection He.
  - intros Hf. now rewrite Hf in He.
Qed.

Lemma process_message_crop_type_source_witness :
  detect_crop ascii_lower sample_data "Rice or wheat?" = Some "Wheat".
Proof.
  apply (process_message_crop_type_source ascii_lower sample_data
           "Rice or wheat?" (Some "") "Wheat"); reflexivity.
Defined.

(** ** Resolved topics *)

Lemma find_matching_topic_loop_In (m t : string) (items : dict string) :
  find_matching_topic_loop m items = Some t -> In t (map snd items).
Proof.
  induction items as [|[k0 t0] items IH]; simpl; [discriminate|].
  destruct (str_in k0 m).
  - intros [= ->]. now left.
  - intros H. right. now apply IH.
Qed.

(** [find_matching_topic] only returns topics of its table, none of which
    is empty, and its result does not depend on the crop record it is
    given. *)
Theorem find_matching_topic_range
  (lower : string -> string) (message : string) (crop_info : crop_record) :
  (forall t,
      find_matching_topic lower message crop_info = Some t ->
      In t (map snd keyword_map) /\ t <> "") /\
  (forall other : crop_record,
      find_matching_topic lower message other =
      find_matching_topic lower message crop_info).
Proof.
  split; [|reflexivity].
  intros t H. apply find_matching_topic_loop_In in H. split; [assumption|].
  intros ->. simpl in H.
  repeat (destruct H as [H | H]; [discriminate H|]). contradiction.
Qed.

(** ** Formatting of the advice *)



Lemma main_topic_headings_table (t h : string) :
  In (t, h)
     [ ("season", "Season"); ("soil", "Soil"); ("watering", "Watering");
       ("fertilizer", "Fertilizer"); ("pests", "Pests");
       ("harvesting", "Harvesting"); ("yield", "Yield");
       ("spacing", "Spacing"); ("varieties", "Varieties");
       ("organic_tips", "Organic Tips") ] ->
  title (replace "_" " " t) = h /\ t <> "".
Proof.
  intros Hin. simpl in Hin.
  repeat (destruct Hin as [[= <- <-] | Hin];
          [split; [reflexivity | discriminate]|]).
  contradiction.
Qed.

(** In the general summary a list-valued main topic is rendered differently
    from the answer to that topic alone.  The summary of a known crop
    contains the block made of the heading, the first fact on the heading
    line with no bullet marker, each later fact on a new line after the
    marker, and a blank line; the answer to the topic alone is the same
    facts with the marker before the first one too.  Below [lf] is the
    line feed and [mark] the bullet marker with its space. *)
Theorem general_summary_list_rendering
  (crop_data : knowledge_base) (crop : string) (crop_info : crop_record)
  (t h x : string) (rest : list string) :
  dict_get crop_data crop = Some crop_info ->
  In (t, h)
     [ ("season", "Season"); ("soil", "Soil"); ("watering", "Watering");
       ("fertilizer", "Fertilizer"); ("pests", "Pests");
       ("harvesting", "Harvesting"); ("yield", "Yield");
       ("spacing", "Spacing"); ("varieties", "Varieties");
       ("organic_tips", "Organic Tips") ] ->
  dict_get crop_info t = Some (Facts (x :: rest)) ->
  let lf := String "010" "" in
  let mark :=
    String "195" (String "162" (String "226" (String "130" (String "172"
      (String "194" (String "162" " ")))))) in
  let body := x ++ String.concat "" (map (fun f => lf ++ mark ++ f) rest) in
  Substring ("**" ++ h ++ ":** " ++ body ++ lf ++ lf)
            (get_crop_advice crop_data crop None) /\
  get_crop_advice crop_data crop (Some t) = mark ++ body.
Proof.
  intros Hc Hin Hl lf mark body.
  assert (Hbody : join (nl ++ bullet ++ " ") (x :: rest) = body).
  { rewrite join_cons. reflexivity. }
  split.
  - unfold get_crop_advice. rewrite Hc. unfold general_advice.
    destruct (general_loop_blocks crop_info _ (general_header crop)
                (fun t' h' H => proj1 (main_topic_headings_table t' h' H)))
      as (blocks & Hk & Hv & Hf).
    change main_topics with
      (map fst
         [ ("season", "Season"); ("soil", "Soil"); ("watering", "Watering");
           ("fertilizer", "Fertilizer"); ("pests", "Pests");
           ("harvesting", "Harvesting"); ("yield", "Yield");
           ("spacing", "Spacing"); ("varieties", "Varieties");
           ("organic_tips", "Organic Tips") ]).
    rewrite Hf. apply Substring_app_l.
    assert (Hb : In (t, h) (map fst blocks)).
    { rewrite Hk. apply filter_In. split; [exact Hin|].
      cbn [fst]. unfold dict_mem. now rewrite Hl. }
    apply in_map_iff in Hb. destruct Hb as ([[t' h'] v] & [= -> ->] & Hb).
    pose proof (Hv t h v Hb) as Hv'. rewrite Hl in Hv'.
    injection Hv' as <-.
    apply (Substring_join "").
    apply in_map_iff. exists (t, h, Facts (x :: rest)).
    split; [|exact Hb]. cbn [fst snd].
    fold (join (nl ++ bullet ++ " ") (x :: rest)). rewrite Hbody.
    reflexivity.
  - unfold get_crop_advice. rewrite Hc.
    destruct (main_topic_headings_table t h Hin) as [_ Hne].
    apply truthy_Some in Hne. rewrite Hne, Hl, Hbody.
    reflexivity.
Qed.

Lemma general_summary_list_rendering_witness :
  let lf := String "010" "" in
  let mark :=
    String "195" (String "162" (String "226" (String "130" (String "172"
      (String "194" (String "162" " ")))))) in
  Substring ("**Watering:** Water every 3 days" ++ lf
               ++ mark ++ "Avoid waterlogging" ++ lf ++ lf)
            (get_crop_advice sample_data "Wheat" None) /\
  get_crop_advice sample_data "Wheat" (Some "watering") =
    mark ++ "Water every 3 days" ++ lf ++ mark ++ "Avoid waterlogging".
Proof.
  apply (general_summary_list_rendering sample_data "Wheat" wheat_record
           "watering" "Watering" "Water every 3 days"
           [ "Avoid waterlogging" ]).
  - reflexivity.
  - right; right; now left.
  - reflexivity.
Defined.

(** The crop rule end to end.  Under the crop rule the response text is:
    the general summary when no keyword of the table occurs in the message;
    otherwise, for the resolved topic, the stored text, the bulleted list,
    or the no-information text when the crop's record lacks that topic. *)
Theorem process_message_crop_rule_text
  (lower : string -> string) (crop_data : knowledge_base)
  (message : string) (hint : option string)
  (crop : string) (crop_info : crop_record) :
  ~ has_greeting lower message ->
  ~ asks_for_crops lower message ->
  (if truthy hint then hint else detect_crop lower crop_data message)
  = Some crop ->
  crop <> "" ->
  dict_get crop_data crop = Some crop_info ->
  response (process_message lower crop_data message hint) =
    match find_matching_topic lower message crop_info with
    | None => general_advice crop crop_info
    | Some topic =>
        match dict_get crop_info topic with
        | Some (Text s) => s
        | Some (Facts l) => bullet ++ " " ++ join (nl ++ bullet ++ " ") l
        | None =>
            "No information available for " ++ topic ++ " of " ++ crop ++ "."
        end
    end.
Proof.
  intros Hg Hc Hh Hne Hk.
  rewrite (process_message_crop lower crop_data message hint crop crop_info
             Hg Hc Hh Hne Hk).
  cbn [response]. unfold get_crop_advice. rewrite Hk.
  destruct (find_matching_topic lower message crop_info) as [t|] eqn:Et;
    [|reflexivity].
  apply find_matching_topic_range in Et. destruct Et as [_ Et].
  apply truthy_Some in Et. rewrite Et.
  destruct (dict_get crop_info t) as [[s|l]|]; reflexivity.
Qed.

Lemma process_message_crop_rule_text_witness :
  response (process_message ascii_lower sample_data
              "How do I prune my wheat?" None) =
    "No information available for pruning of Wheat.".
Proof.
  apply (process_message_crop_rule_text ascii_lower sample_data
           "How do I prune my wheat?" None "Wheat" wheat_record).
  - intros [H | [H | H]]; revert H; apply str_in_false; reflexivity.
  - intros [H | H]; revert H; apply str_in_false; reflexivity.
  - reflexivity.
  - discriminate.
  - reflexivity.
Defined.

(** ** The general summary and the topics outside the fixed list *)

Lemma fold_left_ext_in {A B : Type} (f g : A -> B -> A) (l : list B) :
  (forall a x, In x l -> f a x = g a x) ->
  forall a, fold_left f l a = fold_left g l a.
Proof.
  induction l as [|x l IH]; intros H a; [reflexivity|].
  cbn [fold_left]. rewrite (H a x (or_introl eq_refl)).
  apply IH. intros a' y Hin. apply H. now right.
Qed.

Lemma general_advice_agree (crop : string) (info info' : crop_record) :
  (forall t, In t main_topics -> dict_get info t = dict_get info' t) ->
  general_advice crop info = general_advice crop info'.
Proof.
  intros H. unfold general_advice. apply fold_left_ext_in.
  intros a t Hin. unfold general_step. now rewrite (H t Hin).
Qed.

(** The general summary shows the ten main topics only: whatever else a
    crop's record holds (irrigation methods, climate, storage, ...) does not
    change it. *)
Theorem general_summary_ignores_other_topics
  (crop_data crop_data' : knowledge_base) (crop : string)
  (crop_info crop_info' : crop_record) :
  dict_get crop_data crop = Some crop_info ->
  dict_get crop_data' crop = Some crop_info' ->
  (forall t, In t main_topics ->
             dict_get crop_info t = dict_get crop_info' t) ->
  get_crop_advice crop_data crop None = get_crop_advice crop_data' crop None.
Proof.
  intros H H' Ha. unfold get_crop_advice. rewrite H, H'.
  now apply general_advice_agree.
Qed.

Lemma general_summary_ignores_other_topics_witness :
  get_crop_advice sample_data "Rice" None =
  get_crop_advice
    [ ("Rice", ("climate", Text "Warm and humid") :: rice_record) ]
    "Rice" None.
Proof.
  apply (general_summary_ignores_other_topics sample_data
           [ ("Rice", ("climate", Text "Warm and humid") :: rice_record) ]
           "Rice" rice_record
           (("climate", Text "Warm and humid") :: rice_record)).
  - reflexivity.
  - reflexivity.
  - intros t Hin. simpl in Hin.
    repeat (destruct Hin as [<- | Hin]; [reflexivity|]). contradiction.
Defined.

(** For a known crop whose record holds none of the main topics (an empty
    record, say) the general summary is the header line alone. *)
Theorem general_summary_header_only
  (crop_data : knowledge_base) (crop : string) (crop_info : crop_record) :
  dict_get crop_data crop = Some crop_info ->
  (forall t, In t main_topics -> dict_get crop_info t = None) ->
  get_crop_advice crop_data crop None =
    "Here's general information about " ++ crop ++ ":" ++ nl ++ nl.
Proof.
  intros H Hn. unfold get_crop_advice. rewrite H.
  rewrite (general_advice_agree crop crop_info []); [reflexivity|].
  intros t Hin. now rewrite (Hn t Hin).
Qed.

Lemma general_summary_header_only_witness :
  get_crop_advice sample_data "Maize" None =
    "Here's general information about Maize:" ++ nl ++ nl.
Proof.
  apply (general_summary_header_only sample_data "Maize" []).
  - reflexivity.
  - reflexivity.
Defined.

(** ** Greetings inside crop names *)

(** A crop whose lowercased name contains "hello", "hi" or "hey" cannot be
    asked about by name: every message that names it gets the greeting,
    whatever the hint. *)
Theorem greeting_shadows_crop
  (lower : string -> string) (crop_data : knowledge_base)
  (crop message : string) (hint : option string) :
  has_greeting lower crop ->
  Substring (lower crop) (lower message) ->
  process_message lower crop_data message hint = greeting_response.
Proof.
  intros Hg Hm. apply process_message_greeting.
  destruct Hg as [H | [H | H]].
  - left. now apply Substring_trans with (lower crop).
  - right; left. now apply Substring_trans with (lower crop).
  - right; right. now apply Substring_trans with (lower crop).
Qed.

Lemma greeting_shadows_crop_witness :
  process_message ascii_lower [ ("Chickpea", [ ("soil", Text "Loam") ]) ]
    "Which soil for chickpea?" (Some "Chickpea") = greeting_response.
Proof.
  apply (greeting_shadows_crop ascii_lower
           [ ("Chickpea", [ ("soil", Text "Loam") ]) ]
           "Chickpea" "Which soil for chickpea?" (Some "Chickpea")).
  - right; left. apply str_in_spec. reflexivity.
  - apply str_in_spec. reflexivity.
Defined.

(** ** Case of the message *)

(** The message is only used lowercased: two messages with the same
    lowercased form get the same detected crop, the same topic and the same
    response. *)
Theorem process_message_case_insensitive
  (lower : string -> string) (crop_data : knowledge_base)
  (message message' : string) (hint : option string) :
  lower message = lower message' ->
  detect_crop lower crop_data message = detect_crop lower crop_data message'
  /\
  (forall crop_info,
      find_matching_topic lower message crop_info =
      find_matching_topic lower message' crop_info) /\
  process_message lower crop_data message hint =
  process_message lower crop_data message' hint.
Proof.
  intros H. unfold process_message, crop_response, find_matching_topic,
    detect_crop. cbv zeta. now rewrite H.
Qed.

Lemma process_message_case_insensitive_witness :
  process_message ascii_lower sample_data "WATER for Wheat" None =
  process_message ascii_lower sample_data "water for wheat" None.
Proof.
  apply (process_message_case_insensitive ascii_lower sample_data
           "WATER for Wheat" "water for wheat" None).
  reflexivity.
Defined.

(** ** Following a crop suggestion *)

Lemma in_firstn_list {A : Type} (n : nat) (l : list A) (x : A) :
  In x (firstn n l) -> In x l.
Proof.
  intros H. rewrite <- (firstn_skipn n l). apply in_or_app. now left.
Qed.

Lemma detect_crop_is_key
  (lower : string -> string) (crop_data : knowledge_base)
  (message k : string) :
  detect_crop lower crop_data message = Some k -> In k (keys crop_data).
Proof.
  unfold detect_crop. intros H. apply detect_crop_loop_Some in H.
  destruct H as (before & after & -> & _). apply in_or_app. right. now left.
Qed.

(** Each suggestion of the available-crops response, sent back as a
    message, names a crop: detection finds a key of the knowledge base in
    it, provided the lowercased name of each crop occurs in the lowercased
    suggestion built from that crop. *)
Theorem crop_suggestion_detects_a_crop
  (lower : string -> string) (crop_data : knowledge_base)
  (l : list string) (s : string) :
  (forall c, In c (keys crop_data) ->
             Substring (lower c) (lower ("Complete guide for " ++ c))) ->
  suggestions (available_crops_response crop_data) = Some l ->
  In s l ->
  exists k, detect_crop lower crop_data s = Some k /\ In k (keys crop_data).
Proof.
  intros Hlow [= <-] Hin. apply in_map_iff in Hin.
  destruct Hin as (c & <- & Hc).
  change (In c (firstn 4 (get_available_crops crop_data))) in Hc.
  apply in_firstn_list in Hc.
  unfold get_available_crops in Hc.
  destruct (detect_crop lower crop_data ("Complete guide for " ++ c))
    as [k|] eqn:Ed.
  - exists k. split; [exact Ed|].
    apply detect_crop_is_key in Ed. exact Ed.
  - exfalso. unfold detect_crop in Ed.
    apply (proj1 (detect_crop_loop_None lower _ _) Ed c Hc).
    now apply Hlow.
Qed.

Lemma crop_suggestion_detects_a_crop_witness :
  exists k,
    detect_crop ascii_lower sample_data "Complete guide for Maize" = Some k /\
    In k (keys sample_data).
Proof.
  apply (crop_suggestion_detects_a_crop ascii_lower sample_data
           [ "Complete guide for Wheat"; "Complete guide for Rice";
             "Complete guide for Maize"; "Complete guide for Cotton" ]
           "Complete guide for Maize").
  - intros c Hc. simpl in Hc.
    repeat (destruct Hc as [<- | Hc]; [apply str_in_spec; reflexivity|]).
    contradiction.
  - reflexivity.
  - right; right; now left.
Defined.

(** ** Keywords inside crop names *)

(** When the lowercased name of a crop contains a keyword of the table
    ("plant" in "Eggplant", "water" in "Watermelon"), every message that
    names the crop resolves to some topic, so naming the crop never yields
    its general summary; with "plant", the first keyword, the topic is
    always season. *)
Theorem keyword_in_crop_name
  (lower : string -> string) (crop message keyword : string)
  (crop_info : crop_record) :
  In keyword (keys keyword_map) ->
  Substring keyword (lower crop) ->
  Substring (lower crop) (lower message) ->
  (exists t, find_matching_topic lower message crop_info = Some t) /\
  (keyword = "plant" ->
   find_matching_topic lower message crop_info = Some "season").
Proof.
  intros Hk Hc Hm.
  assert (Hs : Substring keyword (lower message))
    by now apply Substring_trans with (lower crop).
  split.
  - destruct (find_matching_topic lower message crop_info) as [t|] eqn:E;
      [now exists t|].
    unfold find_matching_topic in E.
    elim (proj1 (find_matching_topic_loop_None _ _) E keyword Hk Hs).
  - intros ->. unfold find_matching_topic. cbn [keyword_map
      find_matching_topic_loop].
    apply str_in_spec in Hs. now rewrite Hs.
Qed.

Lemma keyword_in_crop_name_witness :
  find_matching_topic ascii_lower "Tell me about eggplant" [] = Some "season".
Proof.
  apply (keyword_in_crop_name ascii_lower "Eggplant"
           "Tell me about eggplant" "plant" []).
  - now left.
  - apply str_in_spec. reflexivity.
  - apply str_in_spec. reflexivity.
  - reflexivity.
Defined.
